(** * History analytics engine: [src/core/history_analyzer.py]

    A shallow embedding of the [HistoryAnalyzer] class and of the pandas
    reductions it calls, together with the properties the specification
    states about it.

    Layout:
    - [Num]: the arithmetic of a DataFrame column, with two instances:
      [binary64] (IEEE 754 double precision, what Python, numpy and pandas
      compute with) and [exactQ] (rationals: the same code, without
      rounding);
    - [Series]: the pandas reductions [mean] and [max] of a column
      ([skipna=True]), [min] and [max] of the timestamps;
    - rows, dictionaries and figures as records;
    - the database manager as the answers to its three queries, the wall
      clock as the sequence of its readings, and a monad for the methods,
      which read the clock, query the database manager and may raise;
    - the methods of [HistoryAnalyzer], statement by statement;
    - the facts, and one theorem per property of the specification.

    A DataFrame is the list of its rows, in order.  A [datetime] is a number
    of microseconds since 0001-01-01 00:00:00, a timestamp likewise.  A
    column is summed from the left, which is the order numpy adds fewer than
    eight entries in; it adds a longer column pairwise in blocks, which in
    binary64 can move the last bit of the sum and in exact arithmetic
    changes nothing. *)

From Stdlib Require Import String ZArith QArith Qround List Bool Lia Lqa Floats.
Import ListNotations.

Set Implicit Arguments.

(** ** Column arithmetic *)

(** The operations the pandas reductions perform on the elements of a
    numeric column.  [f_trunc] is Python's [int(x)]: it truncates towards
    zero and has no result on NaN and on the infinities, where Python raises
    [ValueError] and [OverflowError]. *)
Class Num (F : Type) : Type := {
  f_zero  : F;
  f_nan   : F;
  f_add   : F -> F -> F;
  f_div   : F -> F -> F;
  f_of_Z  : Z -> F;
  f_leb   : F -> F -> bool;
  f_isnan : F -> bool;
  f_trunc : F -> option Z
}.

(** What the reductions need of the comparison: on values that are not NaN
    it is a total preorder, and nothing compares with NaN. *)
Class NumOrder {F : Type} (HN : Num F) : Prop := {
  f_leb_refl  : forall x, f_isnan x = false -> f_leb x x = true;
  f_leb_total : forall x y, f_isnan x = false -> f_isnan y = false ->
                            f_leb x y = true \/ f_leb y x = true;
  f_leb_trans : forall x y z, f_leb x y = true -> f_leb y z = true ->
                              f_leb x z = true
}.

(** *** IEEE 754 binary64 *)

Module Binary64.

(** int64 to float64, rounding to nearest even. *)
Definition of_Z (z : Z) : float :=
  SF2Prim (binary_normalize prec emax z 0 false).

(** Python's [int(x)] on a float. *)
Definition trunc (x : float) : option Z :=
  match Prim2SF x with
  | S754_zero _ => Some 0%Z
  | S754_finite s m e => Some (cond_Zopp s (Z.shiftl (Z.pos m) e))
  | S754_infinity _ | S754_nan => None
  end.


End Binary64.

#[global] Instance binary64 : Num float := {
  f_zero  := PrimFloat.zero;
  f_nan   := PrimFloat.nan;
  f_add   := PrimFloat.add;
  f_div   := PrimFloat.div;
  f_of_Z  := Binary64.of_Z;
  f_leb   := PrimFloat.leb;
  f_isnan := PrimFloat.is_nan;
  f_trunc := Binary64.trunc
}.

(** *** Exact rationals *)



(** ** pandas reductions over a column *)

Section Series.

Context {F : Type} `{Num F}.

(** [skipna=True]: NaN entries take no part in a reduction. *)
Definition notna (x : F) : bool := negb (f_isnan x).

Definition dropna (s : list F) : list F := filter notna s.

(** [nansum]: NaN counts as zero, accumulation from the left. *)
Definition fillna0 (s : list F) : list F :=
  map (fun x => if f_isnan x then f_zero else x) s.

Definition series_sum (s : list F) : F := fold_left f_add (fillna0 s) f_zero.

(** [Series.mean()]: the sum over the number of entries that are not NaN,
    NaN when there is none. *)
Definition series_mean (s : list F) : F :=
  match dropna s with
  | [] => f_nan
  | _ :: _ => f_div (series_sum s) (f_of_Z (Z.of_nat (length (dropna s))))
  end.

(** [numpy.maximum]: keeps the accumulator unless the new element is
    larger. *)
Definition f_max (a x : F) : F := if f_leb x a then a else x.

(** [Series.max()]. *)
Definition series_max (s : list F) : F :=
  match dropna s with
  | [] => f_nan
  | x :: xs => fold_left f_max xs x
  end.

(** [Series.mean()] on an int64 column: the entries are converted to
    float64 and summed there. *)
Definition series_mean_int (s : list Z) : F :=
  match s with
  | [] => f_nan
  | _ :: _ => f_div (fold_left f_add (map f_of_Z s) f_zero)
                    (f_of_Z (Z.of_nat (length s)))
  end.

End Series.

(** [Series.min()] and [Series.max()] on a column of timestamps that has a
    first row. *)
Definition ts_min (t : Z) (ts : list Z) : Z := fold_left Z.min ts t.
Definition ts_max (t : Z) (ts : list Z) : Z := fold_left Z.max ts t.

(** ** Rows, results and figures *)

(** A row of [system_history]. *)
Module SystemRow.
Record t (F : Type) : Type := mk {
  timestamp       : Z;
  cpu_percent     : F;
  memory_percent  : F;
  disk_percent    : F;
  total_processes : Z
}.
End SystemRow.

(** A row of the trend of one process. *)
Module ProcessRow.
Record t (F : Type) : Type := mk {
  timestamp   : Z;
  cpu_percent : F;
  memory_mb   : F
}.
End ProcessRow.

(** A row of the ranking of processes by CPU. *)
Module RankingRow.
Record t (F : Type) : Type := mk {
  name         : string;
  avg_cpu      : F;
  avg_memory   : F;
  sample_count : Z
}.
End RankingRow.

(** The dictionary [get_system_summary] returns. *)
Module Summary.
Record t (F : Type) : Type := mk {
  cpu_avg       : F;
  cpu_max       : F;
  memory_avg    : F;
  memory_max    : F;
  disk_avg      : F;
  disk_max      : F;
  processes_avg : Z;
  start_time    : Z;
  end_time      : Z;
  data_points   : nat
}.
End Summary.

(** The dictionary [get_process_analysis] returns. *)
Module Analysis.
Record t (F : Type) : Type := mk {
  name        : string;
  cpu_avg     : F;
  cpu_max     : F;
  memory_avg  : F;
  memory_max  : F;
  data_points : nat;
  trend_data  : list (ProcessRow.t F)
}.
End Analysis.

(** What a chart method draws: the placeholder text, or the data handed to
    [plot] and [bar].  Labels, titles, grids and legends are left out. *)
Module Figure.
Record line (F : Type) : Type := mk_line {
  xdata : list Z;
  ydata : list F
}.

Inductive t (F : Type) : Type :=
| Text (message : string)
| Plot (l : line F)
| Bar (labels : list string) (heights : list F)
| TwinPlot (left right : line F).

Arguments Text {F} message.
Arguments Plot {F} l.
Arguments Bar {F} labels heights.
Arguments TwinPlot {F} left right.

End Figure.

(** ** Exceptions, the clock and the database manager *)

Inductive exn : Type :=
| QueryError (message : string)   (* raised by the database manager *)
| OverflowError                   (* datetime arithmetic, int(inf) *)
| ValueError.                     (* int(nan) *)

Inductive result (A : Type) : Type :=
| Ok (a : A)
| Raise (e : exn).

Arguments Ok {A} a.
Arguments Raise {A} e.

(** [datetime] and [timedelta], in microseconds; a [datetime] counts from
    0001-01-01 00:00:00. *)
Module Datetime.

Definition usec_per_hour : Z := 3600000000.

(** 9999-12-31 23:59:59.999999 *)
Definition max : Z := 3652059 * 86400000000 - 1.

Definition in_range (t : Z) : bool := (0 <=? t)%Z && (t <=? max)%Z.

(** [timedelta(hours=h)]: at most 999999999 days either way. *)
Definition timedelta_hours (h : Z) : result Z :=
  if (Z.abs (h / 24) <=? 999999999)%Z
  then Ok (h * usec_per_hour)%Z
  else Raise OverflowError.

(** [t - delta] *)
Definition sub (t delta : Z) : result Z :=
  if in_range (t - delta) then Ok (t - delta)%Z else Raise OverflowError.

End Datetime.

(** A call the analyzer makes on the database manager. *)
Inductive query : Type :=
| SystemHistory (hours : Z)
| TopProcessesByCpu (limit : Z)
| ProcessTrend (process_name : string).

(** The database manager ([self.db_manager]), which the analyzer is given
    and only queries: what each of its three queries answers in its present
    state, rows or an exception. *)
Record DatabaseManager (F : Type) : Type := {
  get_system_history       : Z -> result (list (SystemRow.t F));
  get_top_processes_by_cpu : Z -> result (list (RankingRow.t F));
  get_process_trend        : string -> result (list (ProcessRow.t F))
}.

(** The surroundings of a call: the wall clock ([clock n] is what the
    [n]-th reading gives), the number of readings so far, and the queries
    sent to the database manager, oldest first. *)
Record World : Type := {
  clock   : nat -> Z;
  reads   : nat;
  queries : list query
}.

(** Computations that read the clock, query the database and may raise. *)
Definition M (A : Type) : Type := World -> result A * World.

Definition ret {A} (a : A) : M A := fun w => (Ok a, w).

Definition raise {A} (e : exn) : M A := fun w => (Raise e, w).

Definition bind {A B} (m : M A) (k : A -> M B) : M B :=
  fun w =>
    match m w with
    | (Ok a, w') => k a w'
    | (Raise e, w') => (Raise e, w')
    end.

Definition lift {A} (r : result A) : M A := fun w => (r, w).

Declare Scope engine_scope.
Delimit Scope engine_scope with engine.
Notation "x <- m ;; k" := (bind m (fun x => k))
  (at level 61, m at next level, right associativity) : engine_scope.

(** [datetime.now()] *)
Definition datetime_now : M Z :=
  fun w => (Ok (clock w (reads w)),
            {| clock := clock w; reads := S (reads w); queries := queries w |}).

(** A call on the database manager, recorded. *)
Definition call {A} (q : query) (answer : result A) : M A :=
  fun w => (answer,
            {| clock := clock w; reads := reads w;
               queries := queries w ++ [q] |}).

(** ** [class HistoryAnalyzer] *)

Section HistoryAnalyzer.

Context {F : Type} `{Num F}.

(** [self.db_manager] *)
Variable db_manager : DatabaseManager F.

Local Open Scope engine_scope.

(** [int(x)] *)
Definition python_int (x : F) : M Z :=
  match f_trunc x with
  | Some k => ret k
  | None => raise (if f_isnan x then ValueError else OverflowError)
  end.

Definition get_system_summary (hours : Z) : M (Summary.t F) :=
  df <- call (SystemHistory hours) (get_system_history db_manager hours) ;;
  match df with
  | [] =>
      now1 <- datetime_now ;;
      delta <- lift (Datetime.timedelta_hours hours) ;;
      start <- lift (Datetime.sub now1 delta) ;;
      now2 <- datetime_now ;;
      ret {| Summary.cpu_avg := f_zero;
             Summary.cpu_max := f_zero;
             Summary.memory_avg := f_zero;
             Summary.memory_max := f_zero;
             Summary.disk_avg := f_zero;
             Summary.disk_max := f_zero;
             Summary.processes_avg := 0;
             Summary.start_time := start;
             Summary.end_time := now2;
             Summary.data_points := 0 |}
  | row :: rows =>
      processes <- python_int
                     (series_mean_int (map (@SystemRow.total_processes F) df)) ;;
      ret {| Summary.cpu_avg := series_mean (map (@SystemRow.cpu_percent F) df);
             Summary.cpu_max := series_max (map (@SystemRow.cpu_percent F) df);
             Summary.memory_avg :=
               series_mean (map (@SystemRow.memory_percent F) df);
             Summary.memory_max :=
               series_max (map (@SystemRow.memory_percent F) df);
             Summary.disk_avg := series_mean (map (@SystemRow.disk_percent F) df);
             Summary.disk_max := series_max (map (@SystemRow.disk_percent F) df);
             Summary.processes_avg := processes;
             Summary.start_time :=
               ts_min (SystemRow.timestamp row)
                      (map (@SystemRow.timestamp F) rows);
             Summary.end_time :=
               ts_max (SystemRow.timestamp row)
                      (map (@SystemRow.timestamp F) rows);
             Summary.data_points := length df |}
  end.

Definition get_top_processes (limit : Z) : M (list (RankingRow.t F)) :=
  call (TopProcessesByCpu limit) (get_top_processes_by_cpu db_manager limit).

Definition get_process_analysis (process_name : string) : M (Analysis.t F) :=
  df <- call (ProcessTrend process_name)
             (get_process_trend db_manager process_name) ;;
  match df with
  | [] =>
      ret {| Analysis.name := process_name;
             Analysis.cpu_avg := f_zero;
             Analysis.cpu_max := f_zero;
             Analysis.memory_avg := f_zero;
             Analysis.memory_max := f_zero;
             Analysis.data_points := 0;
             Analysis.trend_data := [] |}
  | _ :: _ =>
      ret {| Analysis.name := process_name;
             Analysis.cpu_avg := series_mean (map (@ProcessRow.cpu_percent F) df);
             Analysis.cpu_max := series_max (map (@ProcessRow.cpu_percent F) df);
             Analysis.memory_avg := series_mean (map (@ProcessRow.memory_mb F) df);
             Analysis.memory_max := series_max (map (@ProcessRow.memory_mb F) df);
             Analysis.data_points := length df;
             Analysis.trend_data := df |}
  end.

Definition generate_cpu_usage_chart (hours : Z) : M (Figure.t F) :=
  df <- call (SystemHistory hours) (get_system_history db_manager hours) ;;
  match df with
  | [] => ret (Figure.Text "No data available")
  | _ :: _ =>
      ret (Figure.Plot
             {| Figure.xdata := map (@SystemRow.timestamp F) df;
                Figure.ydata := map (@SystemRow.cpu_percent F) df |})
  end.

Definition generate_memory_usage_chart (hours : Z) : M (Figure.t F) :=
  df <- call (SystemHistory hours) (get_system_history db_manager hours) ;;
  match df with
  | [] => ret (Figure.Text "No data available")
  | _ :: _ =>
      ret (Figure.Plot
             {| Figure.xdata := map (@SystemRow.timestamp F) df;
                Figure.ydata := map (@SystemRow.memory_percent F) df |})
  end.

Definition generate_top_processes_chart (limit : Z) : M (Figure.t F) :=
  df <- get_top_processes limit ;;
  match df with
  | [] => ret (Figure.Text "No data available")
  | _ :: _ =>
      ret (Figure.Bar (map (@RankingRow.name F) df)
                      (map (@RankingRow.avg_cpu F) df))
  end.

Definition generate_process_trend_chart (process_name : string)
  : M (Figure.t F) :=
  df <- call (ProcessTrend process_name)
             (get_process_trend db_manager process_name) ;;
  match df with
  | [] => ret (Figure.Text ("No data available for " ++ process_name))
  | _ :: _ =>
      ret (Figure.TwinPlot
             {| Figure.xdata := map (@ProcessRow.timestamp F) df;
                Figure.ydata := map (@ProcessRow.cpu_percent F) df |}
             {| Figure.xdata := map (@ProcessRow.timestamp F) df;
                Figure.ydata := map (@ProcessRow.memory_mb F) df |})
  end.

End HistoryAnalyzer.

(** ** The vocabulary of the specification *)

Section Vocabulary.

Context {F : Type} `{Num F}.


(** [m] is a largest element of [s]. *)
Definition is_max (m : F) (s : list F) : Prop :=
  In m s /\ forall x, In x s -> f_leb x m = true.

(** No entry of the column is NaN. *)
Definition numeric (s : list F) : Prop :=
  Forall (fun x => f_isnan x = false) s.

(** A ranking is in descending order of [avg_cpu]. *)
Definition descending (entries : list (RankingRow.t F)) : Prop :=
  forall i a b,
    nth_error entries i = Some a -> nth_error entries (S i) = Some b ->
    f_leb (RankingRow.avg_cpu b) (RankingRow.avg_cpu a) = true.

End Vocabulary.




(** The world after one query. *)
Definition asked (q : query) (w : World) : World :=
  {| clock := clock w; reads := reads w; queries := queries w ++ [q] |}.

(** ** Sample data *)

Module Sample.

(** 2026-01-01 00:00:00 *)
Definition new_year_2026 : Z := Eval cbv in (739616 * 86400000000)%Z.

(** A clock that is a microsecond further at each reading. *)
Definition world : World :=
  {| clock := fun n => (new_year_2026 + Z.of_nat n)%Z;
     reads := 0;
     queries := [] |}.

(** A database manager that answers every query with the same rows. *)
Definition db {F : Type} (history : list (SystemRow.t F))
           (ranking : list (RankingRow.t F)) (trend : list (ProcessRow.t F))
  : DatabaseManager F :=
  {| get_system_history := fun _ => Ok history;
     get_top_processes_by_cpu := fun _ => Ok ranking;
     get_process_trend := fun _ => Ok trend |}.

(** A database manager whose queries fail. *)
Definition db_down (F : Type) : DatabaseManager F :=
  {| get_system_history := fun _ => Raise (QueryError "database is locked");
     get_top_processes_by_cpu :=
       fun _ => Raise (QueryError "database is locked");
     get_process_trend := fun _ => Raise (QueryError "database is locked") |}.

(** Three samples an hour apart. *)
Definition three_rows : list (SystemRow.t float) :=
  [ SystemRow.mk new_year_2026 10%float 50%float 1%float 100;
    SystemRow.mk (new_year_2026 + 3600000000) 20%float 50%float 2%float 102;
    SystemRow.mk (new_year_2026 + 7200000000) 30%float 50%float 3%float 104 ].

(** The double nearest to 0.1 *)
Definition tenth : float := 0x1.999999999999ap-4%float.

(** Three samples of an idle machine. *)
Definition idle_rows : list (SystemRow.t float) :=
  [ SystemRow.mk new_year_2026 tenth tenth tenth 100;
    SystemRow.mk (new_year_2026 + 3600000000) tenth tenth tenth 101;
    SystemRow.mk (new_year_2026 + 7200000000) tenth tenth tenth 101 ].


Definition busy_trend : list (ProcessRow.t float) :=
  [ ProcessRow.mk new_year_2026 10%float 200%float;
    ProcessRow.mk (new_year_2026 + 3600000000) 30%float 100%float ].

Definition ranking : list (RankingRow.t float) :=
  [ RankingRow.mk "chrome" 30%float 900%float 12;
    RankingRow.mk "python" 20%float 100%float 12;
    RankingRow.mk "bash" 1%float 5%float 7 ].



End Sample.

(** ** Reading a figure *)



(** What is left of a column once its NaN entries are dropped has [m] for a
    largest element; [m] is NaN when nothing is left. *)
Definition largest_present {F : Type} `{Num F} (m : F) (s : list F) : Prop :=
  match dropna s with
  | [] => m = f_nan
  | _ :: _ => is_max m (dropna s)
  end.

(** ** More sample data *)

Module Gaps.

(** Three samples, the second with no CPU and no disk reading. *)
Definition rows : list (SystemRow.t float) :=
  [ SystemRow.mk Sample.new_year_2026 10%float 50%float PrimFloat.nan 100;
    SystemRow.mk (Sample.new_year_2026 + 3600000000)
                 PrimFloat.nan 40%float PrimFloat.nan 102;
    SystemRow.mk (Sample.new_year_2026 + 7200000000)
                 30%float 60%float PrimFloat.nan 104 ].

Definition trend : list (ProcessRow.t float) :=
  [ ProcessRow.mk Sample.new_year_2026 PrimFloat.nan 200%float;
    ProcessRow.mk (Sample.new_year_2026 + 3600000000) 30%float PrimFloat.nan ].

End Gaps.

(** * The history dialog: [src/gui/history_dialog.py] *)

From Stdlib Require Ascii DecimalString.

(** ** What Python does for the dialog *)

Module Python.

(** [l[i]]: a negative index counts from the end; outside of the list there
    is no item, and Python raises [IndexError]. *)
Definition getitem {A : Type} (l : list A) (i : Z) : option A :=
  let n := Z.of_nat (length l) in
  if ((0 <=? i) && (i <? n))%Z then nth_error l (Z.to_nat i)
  else if ((- n <=? i) && (i <? 0))%Z then nth_error l (Z.to_nat (n + i))
  else None.

(** [str(z)] and [f"{z}"] for an int *)
Definition str (z : Z) : string :=
  DecimalString.NilZero.string_of_int (Z.to_int z).

(** [f"{x:.1f}"] for a float: the value of [x] rounded to one decimal, to
    the even neighbour when half way; the sign is kept, also on zero; NaN
    prints without sign. *)
Definition fixed1 (x : float) : string :=
  match Prim2SF x with
  | S754_nan => "nan"
  | S754_infinity s => if s then "-inf" else "inf"
  | S754_zero s => (if s then "-" else "") ++ "0.0"
  | S754_finite s m e =>
      let n := if (0 <=? e)%Z then (Z.pos m * 2 ^ e)%Z else Z.pos m in
      let d := if (0 <=? e)%Z then 1%Z else (2 ^ (- e))%Z in
      let t := (10 * n)%Z in
      let q := (t / d)%Z in
      let r := (t mod d)%Z in
      let tenths :=
        if (2 * r <? d)%Z then q
        else if (d <? 2 * r)%Z then (q + 1)%Z
        else if Z.even q then q else (q + 1)%Z in
      (if s then "-" else "")
        ++ str (tenths / 10) ++ "." ++ str (tenths mod 10)
  end.







End Python.

(** ** The widgets *)

Module Dialog.

(** The labels the dialog writes to. *)
Inductive label : Type :=
| cpu_avg_label | cpu_max_label | mem_avg_label | mem_max_label
| disk_avg_label | disk_max_label | proc_avg_label | data_points_label
| process_cpu_avg_label | process_cpu_max_label
| process_mem_avg_label | process_mem_max_label
| process_data_points_label.

Inductive canvas : Type :=
| cpu_chart_canvas | mem_chart_canvas | process_chart_canvas
| top_chart_canvas.

Inductive combo : Type :=
| period_combo | process_combo | process_period_combo | top_count_combo.

Definition label_eq_dec (a b : label) : {a = b} + {a <> b}.
Proof. decide equality. Defined.

Definition canvas_eq_dec (a b : canvas) : {a = b} + {a <> b}.
Proof. decide equality. Defined.

(** A [QComboBox]: its items and the index of the current one, -1 when
    there is none. *)
Record combo_box : Type := {
  items        : list string;
  currentIndex : Z
}.

Definition count (c : combo_box) : nat := length (items c).

(** The text of the current item, empty when there is none. *)
Definition currentText (c : combo_box) : string :=
  if (0 <=? currentIndex c)%Z
  then nth (Z.to_nat (currentIndex c)) (items c) EmptyString
  else EmptyString.

(** A [FigureCanvas]: the figure assigned to it, none for the blank figure
    it is made with, and how often it was drawn. *)
Record figure_canvas : Type := {
  figure : option (Figure.t float);
  draws  : nat
}.

(** The state of the widgets: the text of each label, each canvas, each
    combo box, and the rows of [top_table], four cells each, a cell with
    its text or without item. *)
Record t : Type := {
  labels    : label -> string;
  canvases  : canvas -> figure_canvas;
  combos    : combo -> combo_box;
  top_table : list (list (option string))
}.

(** The widgets as [_setup_system_tab], [_setup_process_tab] and
    [_setup_top_tab] make them. *)
Definition setup : t :=
  {| labels := fun l =>
       match l with
       | cpu_avg_label | mem_avg_label | disk_avg_label
       | process_cpu_avg_label => "Avg: 0.0%"
       | cpu_max_label | mem_max_label | disk_max_label
       | process_cpu_max_label => "Max: 0.0%"
       | proc_avg_label => "Avg: 0"
       | data_points_label | process_data_points_label => "Data Points: 0"
       | process_mem_avg_label => "Avg: 0.0 MB"
       | process_mem_max_label => "Max: 0.0 MB"
       end%string;
     canvases := fun _ => {| figure := None; draws := 0 |};
     combos := fun c =>
       match c with
       | period_combo | process_period_combo =>
           {| items := ["Last 6 Hours"; "Last 24 Hours"; "Last 3 Days";
                        "Last 7 Days"]%string;
              currentIndex := 1 |}
       | process_combo => {| items := []; currentIndex := -1 |}
       | top_count_combo =>
           {| items := ["5"; "10"; "15"; "20"]%string; currentIndex := 0 |}
       end;
     top_table := [] |}.

(** [label.setText(text)] *)
Definition setText (l : label) (text : string) (d : t) : t :=
  {| labels := fun l' => if label_eq_dec l l' then text else labels d l';
     canvases := canvases d;
     combos := combos d;
     top_table := top_table d |}.

(** [canvas.figure = fig] *)
Definition set_figure (c : canvas) (fig : Figure.t float) (d : t) : t :=
  {| labels := labels d;
     canvases := fun c' =>
       if canvas_eq_dec c c'
       then {| figure := Some fig; draws := draws (canvases d c') |}
       else canvases d c';
     combos := combos d;
     top_table := top_table d |}.

(** [canvas.draw()] *)
Definition draw (c : canvas) (d : t) : t :=
  {| labels := labels d;
     canvases := fun c' =>
       if canvas_eq_dec c c'
       then {| figure := figure (canvases d c');
               draws := S (draws (canvases d c')) |}
       else canvases d c';
     combos := combos d;
     top_table := top_table d |}.


(** [l[i] = x] where [i] is in the list, nothing elsewhere. *)
Fixpoint replace {A : Type} (i : nat) (x : A) (l : list A) : list A :=
  match l, i with
  | [], _ => []
  | _ :: l', O => x :: l'
  | y :: l', S i' => y :: replace i' x l'
  end.


End Dialog.

(** ** Exceptions and effects of the dialog *)

(** What a method of the dialog can raise: what the analyzer raised, or
    Python's [IndexError]. *)
Inductive pyexn : Type :=
| Raised (e : exn)
| IndexError.

Inductive outcome (A : Type) : Type :=
| Done (a : A)
| Failed (e : pyexn).

Arguments Done {A} a.
Arguments Failed {A} e.

(** Computations of the dialog: they read and write the widgets, call the
    analyzer and may raise. *)
Definition UI (A : Type) : Type :=
  Dialog.t -> World -> outcome A * Dialog.t * World.

Definition ui_ret {A} (a : A) : UI A := fun d w => (Done a, d, w).

Definition ui_raise {A} (e : pyexn) : UI A := fun d w => (Failed e, d, w).

Definition ui_bind {A B} (m : UI A) (k : A -> UI B) : UI B :=
  fun d w =>
    match m d w with
    | (Done a, d', w') => k a d' w'
    | (Failed e, d', w') => (Failed e, d', w')
    end.

(** A call of a method of [self.history_analyzer]. *)
Definition analyzer {A} (m : M A) : UI A :=
  fun d w =>
    match m w with
    | (Ok a, w') => (Done a, d, w')
    | (Raise e, w') => (Failed (Raised e), d, w')
    end.

(** A call that changes a widget. *)
Definition widget (f : Dialog.t -> Dialog.t) : UI unit :=
  fun d w => (Done tt, f d, w).

(** A call that reads a widget. *)
Definition ask {A} (f : Dialog.t -> A) : UI A :=
  fun d w => (Done (f d), d, w).

(** A value Python has or raises for. *)
Definition or_raise {A} (e : pyexn) (o : option A) : UI A :=
  match o with
  | Some a => ui_ret a
  | None => ui_raise e
  end.

Declare Scope ui_scope.
Delimit Scope ui_scope with ui.
Notation "x <- m ;; k" := (ui_bind m (fun x => k))
  (at level 61, m at next level, right associativity) : ui_scope.
Notation "m ;; k" := (ui_bind m (fun _ => k))
  (at level 61, right associativity) : ui_scope.

(** ** [class HistoryDialog] *)

Section HistoryDialog.

(** The database manager of [self.history_analyzer]. *)
Variable db_manager : DatabaseManager float.

Local Open Scope ui_scope.
Local Open Scope string_scope.

Definition _load_system_data : UI unit :=
  period_index <- ask (fun d => Dialog.currentIndex
                                  (Dialog.combos d Dialog.period_combo)) ;;
  hours <- or_raise IndexError
             (Python.getitem [6; 24; 72; 168]%Z period_index) ;;
  summary <- analyzer (get_system_summary db_manager hours) ;;
  widget (Dialog.setText Dialog.cpu_avg_label
            ("Avg: " ++ Python.fixed1 (Summary.cpu_avg summary) ++ "%")) ;;
  widget (Dialog.setText Dialog.cpu_max_label
            ("Max: " ++ Python.fixed1 (Summary.cpu_max summary) ++ "%")) ;;
  widget (Dialog.setText Dialog.mem_avg_label
            ("Avg: " ++ Python.fixed1 (Summary.memory_avg summary) ++ "%")) ;;
  widget (Dialog.setText Dialog.mem_max_label
            ("Max: " ++ Python.fixed1 (Summary.memory_max summary) ++ "%")) ;;
  widget (Dialog.setText Dialog.disk_avg_label
            ("Avg: " ++ Python.fixed1 (Summary.disk_avg summary) ++ "%")) ;;
  widget (Dialog.setText Dialog.disk_max_label
            ("Max: " ++ Python.fixed1 (Summary.disk_max summary) ++ "%")) ;;
  widget (Dialog.setText Dialog.proc_avg_label
            ("Avg: " ++ Python.str (Summary.processes_avg summary))) ;;
  widget (Dialog.setText Dialog.data_points_label
            ("Data Points: "
               ++ Python.str (Z.of_nat (Summary.data_points summary)))) ;;
  cpu_fig <- analyzer (generate_cpu_usage_chart db_manager hours) ;;
  widget (Dialog.set_figure Dialog.cpu_chart_canvas cpu_fig) ;;
  widget (Dialog.draw Dialog.cpu_chart_canvas) ;;
  mem_fig <- analyzer (generate_memory_usage_chart db_manager hours) ;;
  widget (Dialog.set_figure Dialog.mem_chart_canvas mem_fig) ;;
  widget (Dialog.draw Dialog.mem_chart_canvas).

Definition _load_process_data : UI unit :=
  n <- ask (fun d => Dialog.count (Dialog.combos d Dialog.process_combo)) ;;
  if (n =? 0)%nat then ui_ret tt else
  process_name <- ask (fun d => Dialog.currentText
                                  (Dialog.combos d Dialog.process_combo)) ;;
  period_index <- ask (fun d => Dialog.currentIndex
                                  (Dialog.combos d Dialog.process_period_combo)) ;;
  hours <- or_raise IndexError
             (Python.getitem [6; 24; 72; 168]%Z period_index) ;;
  analysis <- analyzer (get_process_analysis db_manager process_name) ;;
  widget (Dialog.setText Dialog.process_cpu_avg_label
            ("Avg: " ++ Python.fixed1 (Analysis.cpu_avg analysis) ++ "%")) ;;
  widget (Dialog.setText Dialog.process_cpu_max_label
            ("Max: " ++ Python.fixed1 (Analysis.cpu_max analysis) ++ "%")) ;;
  widget (Dialog.setText Dialog.process_mem_avg_label
            ("Avg: " ++ Python.fixed1 (Analysis.memory_avg analysis) ++ " MB")) ;;
  widget (Dialog.setText Dialog.process_mem_max_label
            ("Max: " ++ Python.fixed1 (Analysis.memory_max analysis) ++ " MB")) ;;
  widget (Dialog.setText Dialog.process_data_points_label
            ("Data Points: "
               ++ Python.str (Z.of_nat (Analysis.data_points analysis)))) ;;
  fig <- analyzer (generate_process_trend_chart db_manager process_name) ;;
  widget (Dialog.set_figure Dialog.process_chart_canvas fig) ;;
  widget (Dialog.draw Dialog.process_chart_canvas).




End HistoryDialog.

(** ** The vocabulary of the dialog *)

(** [combo.setCurrentIndex(i)], as the user's choice of an item does. *)
Definition setCurrentIndex (c : Dialog.combo) (i : Z) (d : Dialog.t)
  : Dialog.t :=
  {| Dialog.labels := Dialog.labels d;
     Dialog.canvases := Dialog.canvases d;
     Dialog.combos := fun c' =>
       match c, c' with
       | Dialog.period_combo, Dialog.period_combo
       | Dialog.process_combo, Dialog.process_combo
       | Dialog.process_period_combo, Dialog.process_period_combo
       | Dialog.top_count_combo, Dialog.top_count_combo =>
           {| Dialog.items := Dialog.items (Dialog.combos d c');
              Dialog.currentIndex := i |}
       | _, _ => Dialog.combos d c'
       end;
     Dialog.top_table := Dialog.top_table d |}.



(** The labels of the system tab. *)
Definition system_labels : list Dialog.label :=
  [ Dialog.cpu_avg_label; Dialog.cpu_max_label; Dialog.mem_avg_label;
    Dialog.mem_max_label; Dialog.disk_avg_label; Dialog.disk_max_label;
    Dialog.proc_avg_label; Dialog.data_points_label ].

(** A dialog over a long table left from an earlier ranking. *)
Definition stale_dialog : Dialog.t :=
  {| Dialog.labels := Dialog.labels Dialog.setup;
     Dialog.canvases := Dialog.canvases Dialog.setup;
     Dialog.combos := fun c =>
       match c with
       | Dialog.process_combo =>
           {| Dialog.items := ["chrome"; "python"; "bash"]%string;
              Dialog.currentIndex := 0 |}
       | _ => Dialog.combos Dialog.setup c
       end;
     Dialog.top_table :=
       repeat [Some "old"; Some "9.9"; Some "9.9"; Some "9"]%string 5 |}.

Section Shown.

Local Open Scope string_scope.

(** The widgets after a successful [_load_system_data]. *)
Definition shown_system
           (s : Summary.t float) (cpu mem : Figure.t float) (d : Dialog.t)
  : Dialog.t :=
  Dialog.draw Dialog.mem_chart_canvas
    (Dialog.set_figure Dialog.mem_chart_canvas mem
       (Dialog.draw Dialog.cpu_chart_canvas
          (Dialog.set_figure Dialog.cpu_chart_canvas cpu
             (Dialog.setText Dialog.data_points_label
                ("Data Points: "
                   ++ Python.str (Z.of_nat (Summary.data_points s)))
                (Dialog.setText Dialog.proc_avg_label
                   ("Avg: " ++ Python.str (Summary.processes_avg s))
                   (Dialog.setText Dialog.disk_max_label
                      ("Max: " ++ Python.fixed1 (Summary.disk_max s) ++ "%")
                      (Dialog.setText Dialog.disk_avg_label
                         ("Avg: " ++ Python.fixed1 (Summary.disk_avg s) ++ "%")
                         (Dialog.setText Dialog.mem_max_label
                            ("Max: " ++ Python.fixed1 (Summary.memory_max s)
                                     ++ "%")
                            (Dialog.setText Dialog.mem_avg_label
                               ("Avg: " ++ Python.fixed1 (Summary.memory_avg s)
                                        ++ "%")
                               (Dialog.setText Dialog.cpu_max_label
                                  ("Max: "
                                     ++ Python.fixed1 (Summary.cpu_max s)
                                     ++ "%")
                                  (Dialog.setText Dialog.cpu_avg_label
                                     ("Avg: "
                                        ++ Python.fixed1 (Summary.cpu_avg s)
                                        ++ "%")
                                     d))))))))))).

(** The widgets after a successful [_load_process_data]. *)
Definition shown_process
           (a : Analysis.t float) (fig : Figure.t float) (d : Dialog.t)
  : Dialog.t :=
  Dialog.draw Dialog.process_chart_canvas
    (Dialog.set_figure Dialog.process_chart_canvas fig
       (Dialog.setText Dialog.process_data_points_label
          ("Data Points: " ++ Python.str (Z.of_nat (Analysis.data_points a)))
          (Dialog.setText Dialog.process_mem_max_label
             ("Max: " ++ Python.fixed1 (Analysis.memory_max a) ++ " MB")
             (Dialog.setText Dialog.process_mem_avg_label
                ("Avg: " ++ Python.fixed1 (Analysis.memory_avg a) ++ " MB")
                (Dialog.setText Dialog.process_cpu_max_label
                   ("Max: " ++ Python.fixed1 (Analysis.cpu_max a) ++ "%")
                   (Dialog.setText Dialog.process_cpu_avg_label
                      ("Avg: " ++ Python.fixed1 (Analysis.cpu_avg a) ++ "%")
                      d)))))).

End Shown.

(** * Facts *)

(** ** Dates *)

Lemma in_range_iff (t : Z) :
  Datetime.in_range t = true <-> (0 <= t <= 315537897599999999)%Z.
Proof.
  unfold Datetime.in_range. rewrite andb_true_iff, !Z.leb_le.
  change Datetime.max with 315537897599999999%Z. tauto.
Qed.

(** While both ends are dates, the difference is a [timedelta]. *)
Lemma timedelta_hours_in_range (now hours : Z) :
  Datetime.in_range now = true ->
  Datetime.in_range (now - hours * Datetime.usec_per_hour) = true ->
  Datetime.timedelta_hours hours = Ok (hours * Datetime.usec_per_hour)%Z.
Proof.
  rewrite !in_range_iff. change Datetime.usec_per_hour with 3600000000%Z.
  intros Hnow Hstart. unfold Datetime.timedelta_hours.
  replace (Z.abs (hours / 24) <=? 999999999)%Z with true; [reflexivity|].
  symmetry. apply Z.leb_le.
  assert (-87649416 <= hours <= 87649416)%Z by lia.
  assert (-3652059 <= hours / 24)%Z by (apply Z.div_le_lower_bound; lia).
  assert (hours / 24 <= 3652059)%Z by (apply Z.div_le_upper_bound; lia).
  lia.
Qed.

(** ** The comparison of the two arithmetics *)

Module Binary64Order.

Lemma SFcompare_refl (s : spec_float) :
  s <> S754_nan -> SFcompare s s = Some Eq.
Proof.
  destruct s as [b|b| |b m e]; simpl; intros Hn; try congruence.
  - now destruct b.
  - rewrite Z.compare_refl. fold (Pos.compare m m). rewrite Pos.compare_refl.
    now destruct b.
Qed.

Ltac cmp_cases :=
  repeat match goal with
  | |- context [Z.compare ?a ?b] => destruct (Z.compare_spec a b)
  | |- context [Pos.compare_cont Eq ?a ?b] =>
      change (Pos.compare_cont Eq a b) with (Pos.compare a b);
      destruct (Pos.compare_spec a b)
  | H : context [Z.compare ?a ?b] |- _ => destruct (Z.compare_spec a b)
  | H : context [Pos.compare_cont Eq ?a ?b] |- _ =>
      change (Pos.compare_cont Eq a b) with (Pos.compare a b) in H;
      destruct (Pos.compare_spec a b)
  end.

Lemma SFleb_total (a b : spec_float) :
  a <> S754_nan -> b <> S754_nan -> SFleb a b = true \/ SFleb b a = true.
Proof.
  unfold SFleb.
  destruct a as [sa|sa| |sa ma ea], b as [sb|sb| |sb mb eb]; simpl;
    intros Ha Hb; try congruence;
    try (destruct sa); try (destruct sb); auto;
    cmp_cases; simpl; auto; subst; try lia.
Qed.

Lemma SFleb_trans (a b c : spec_float) :
  SFleb a b = true -> SFleb b c = true -> SFleb a c = true.
Proof.
  unfold SFleb.
  destruct a as [sa|sa| |sa ma ea], b as [sb|sb| |sb mb eb],
           c as [sc|sc| |sc mc ec]; simpl;
    try (destruct sa); try (destruct sb); try (destruct sc);
    try discriminate; auto;
    cmp_cases; simpl; intros; subst; try discriminate; auto; try lia.
Qed.

Lemma is_nan_false (x : float) :
  PrimFloat.is_nan x = false -> Prim2SF x <> S754_nan.
Proof.
  unfold PrimFloat.is_nan. rewrite eqb_spec. intros Hx Hn.
  rewrite Hn in Hx. discriminate.
Qed.

End Binary64Order.

#[global] Instance binary64_order : NumOrder binary64.
Proof.
  split; simpl.
  - intros x Hx. rewrite leb_spec. unfold SFleb.
    now rewrite Binary64Order.SFcompare_refl by now apply Binary64Order.is_nan_false.
  - intros x y Hx Hy. rewrite !leb_spec.
    apply Binary64Order.SFleb_total; now apply Binary64Order.is_nan_false.
  - intros x y z. rewrite !leb_spec. apply Binary64Order.SFleb_trans.
Qed.


(** ** The reductions on a column without NaN *)

Section SeriesFacts.

Context {F : Type} {HN : Num F} {HO : NumOrder HN}.





Lemma f_max_cases (a x : F) : f_max a x = a \/ f_max a x = x.
Proof. unfold f_max. destruct (f_leb x a); auto. Qed.

Lemma f_max_notna (a x : F) :
  f_isnan a = false -> f_isnan x = false -> f_isnan (f_max a x) = false.
Proof. intros Ha Hx. destruct (f_max_cases a x) as [-> | ->]; assumption. Qed.

Lemma f_max_ge (a x : F) :
  f_isnan a = false -> f_isnan x = false ->
  f_leb a (f_max a x) = true /\ f_leb x (f_max a x) = true.
Proof.
  intros Ha Hx. unfold f_max. destruct (f_leb x a) eqn:E.
  - split; [now apply f_leb_refl | assumption].
  - split; [|now apply f_leb_refl].
    destruct (f_leb_total a x Ha Hx) as [H|H]; [assumption | congruence].
Qed.

Lemma fold_max_in (xs : list F) (a : F) : In (fold_left f_max xs a) (a :: xs).
Proof.
  revert a. induction xs as [|x xs IH]; intros a; simpl; [now left|].
  destruct (IH (f_max a x)) as [E|Hin]; [|now right; right].
  rewrite <- E. destruct (f_max_cases a x) as [-> | ->]; auto.
Qed.

Lemma fold_max_ge (xs : list F) (a : F) :
  f_isnan a = false -> numeric xs ->
  forall y, In y (a :: xs) -> f_leb y (fold_left f_max xs a) = true.
Proof.
  intros Ha Hxs. revert a Ha.
  induction Hxs as [|x xs Hx Hxs IH]; intros a Ha y Hy; simpl in *.
  - destruct Hy as [<- | []]. now apply f_leb_refl.
  - destruct (f_max_ge a x Ha Hx) as [Hax Hxx].
    pose proof (f_max_notna a x Ha Hx) as Hm.
    destruct Hy as [<- | [<- | Hy]].
    + eapply f_leb_trans; [exact Hax | apply IH; auto].
    + eapply f_leb_trans; [exact Hxx | apply IH; auto].
    + apply IH; auto.
Qed.


End SeriesFacts.

(** ** Timestamps *)



(** ** [int(x)] truncates the value of [x] towards zero *)


(** ** Sums and means without rounding *)

Section ExactFacts.





End ExactFacts.

(** ** What the methods return *)

Section Runs.

Context {F : Type} {HN : Num F}.

Variable db : DatabaseManager F.

Lemma get_system_summary_failed (hours : Z) (w : World) (e : exn) :
  get_system_history db hours = Raise e ->
  get_system_summary db hours w = (Raise e, asked (SystemHistory hours) w).
Proof.
  intros Hq. unfold get_system_summary, bind, call. rewrite Hq. reflexivity.
Qed.


Lemma get_system_summary_empty (hours : Z) (w : World) :
  get_system_history db hours = Ok [] ->
  Datetime.in_range (clock w (reads w)) = true ->
  Datetime.in_range (clock w (reads w) - hours * Datetime.usec_per_hour) = true ->
  get_system_summary db hours w =
  (Ok {| Summary.cpu_avg := f_zero;
         Summary.cpu_max := f_zero;
         Summary.memory_avg := f_zero;
         Summary.memory_max := f_zero;
         Summary.disk_avg := f_zero;
         Summary.disk_max := f_zero;
         Summary.processes_avg := 0;
         Summary.start_time :=
           (clock w (reads w) - hours * Datetime.usec_per_hour)%Z;
         Summary.end_time := clock w (S (reads w));
         Summary.data_points := 0 |},
   {| clock := clock w; reads := S (S (reads w));
      queries := queries w ++ [SystemHistory hours] |}).
Proof.
  intros Hq Hnow Hstart.
  unfold get_system_summary, bind, call, datetime_now, lift, ret.
  rewrite Hq. cbv beta iota. cbn [clock reads queries].
  rewrite (timedelta_hours_in_range _ _ Hnow Hstart).
  unfold Datetime.sub. rewrite Hstart. reflexivity.
Qed.

Lemma get_process_analysis_failed (process_name : string) (w : World) (e : exn) :
  get_process_trend db process_name = Raise e ->
  get_process_analysis db process_name w =
  (Raise e, asked (ProcessTrend process_name) w).
Proof.
  intros Hq. unfold get_process_analysis, bind, call. rewrite Hq. reflexivity.
Qed.

Lemma get_process_analysis_empty (process_name : string) (w : World) :
  get_process_trend db process_name = Ok [] ->
  get_process_analysis db process_name w =
  (Ok {| Analysis.name := process_name;
         Analysis.cpu_avg := f_zero;
         Analysis.cpu_max := f_zero;
         Analysis.memory_avg := f_zero;
         Analysis.memory_max := f_zero;
         Analysis.data_points := 0;
         Analysis.trend_data := [] |},
   asked (ProcessTrend process_name) w).
Proof.
  intros Hq. unfold get_process_analysis, bind, call. rewrite Hq. reflexivity.
Qed.

Lemma get_process_analysis_rows
      (process_name : string) (w : World) (row : ProcessRow.t F)
      (rows : list (ProcessRow.t F)) :
  get_process_trend db process_name = Ok (row :: rows) ->
  get_process_analysis db process_name w =
  (Ok {| Analysis.name := process_name;
         Analysis.cpu_avg :=
           series_mean (map (@ProcessRow.cpu_percent F) (row :: rows));
         Analysis.cpu_max :=
           series_max (map (@ProcessRow.cpu_percent F) (row :: rows));
         Analysis.memory_avg :=
           series_mean (map (@ProcessRow.memory_mb F) (row :: rows));
         Analysis.memory_max :=
           series_max (map (@ProcessRow.memory_mb F) (row :: rows));
         Analysis.data_points := length (row :: rows);
         Analysis.trend_data := row :: rows |},
   asked (ProcessTrend process_name) w).
Proof.
  intros Hq. unfold get_process_analysis, bind, call. rewrite Hq. reflexivity.
Qed.

End Runs.

(** * The properties of the specification *)





(** C2, as amended.  When the database manager answers with no row, and
    the clock reading [now] and [now - hours] are both dates that
    [datetime] can hold, [get_system_summary] raises nothing and returns
    the summary whose six averages and maxima are zero, whose
    [processes_avg] and [data_points] are 0, whose [start_time] is
    [now - hours] and whose [end_time] is the next reading of the clock: the
    two ends are [hours] apart, plus the time between the two readings. *)
Theorem get_system_summary_no_data
        {F : Type} {HN : Num F}
        (db : DatabaseManager F) (hours : Z) (w : World) :
  get_system_history db hours = Ok [] ->
  Datetime.in_range (clock w (reads w)) = true ->
  Datetime.in_range (clock w (reads w) - hours * Datetime.usec_per_hour) = true ->
  exists s,
    fst (get_system_summary db hours w) = Ok s /\
    Summary.cpu_avg s = f_zero /\ Summary.cpu_max s = f_zero /\
    Summary.memory_avg s = f_zero /\ Summary.memory_max s = f_zero /\
    Summary.disk_avg s = f_zero /\ Summary.disk_max s = f_zero /\
    Summary.processes_avg s = 0%Z /\
    Summary.data_points s = 0%nat /\
    Summary.start_time s
    = (clock w (reads w) - hours * Datetime.usec_per_hour)%Z /\
    Summary.end_time s = clock w (S (reads w)) /\
    (Summary.end_time s - Summary.start_time s
     = hours * Datetime.usec_per_hour
       + (clock w (S (reads w)) - clock w (reads w)))%Z.
Proof.
  intros Hq Hnow Hstart.
  rewrite (get_system_summary_empty db hours w Hq Hnow Hstart).
  eexists. split; [reflexivity|].
  cbn [Summary.cpu_avg Summary.cpu_max Summary.memory_avg Summary.memory_max
       Summary.disk_avg Summary.disk_max Summary.processes_avg
       Summary.start_time Summary.end_time Summary.data_points].
  repeat split; lia.
Qed.

Lemma get_system_summary_no_data_witness :
  exists s,
    fst (get_system_summary (Sample.db (F := float) [] [] []) 24 Sample.world)
    = Ok s /\
    Summary.data_points s = 0%nat /\
    (Summary.end_time s - Summary.start_time s
     = 24 * Datetime.usec_per_hour + 1)%Z.
Proof.
  destruct (@get_system_summary_no_data
              float binary64 (Sample.db [] [] []) 24 Sample.world)
    as (s & Hs & _ & _ & _ & _ & _ & _ & _ & Hn & _ & _ & Hd).
  - reflexivity.
  - vm_compute. reflexivity.
  - vm_compute. reflexivity.
  - exists s. split; [exact Hs|]. split; [exact Hn|]. rewrite Hd.
    vm_compute. reflexivity.
Defined.

(** C2 as it is worded fails: over an empty history a window of a hundred
    million hours reaches back before the year 1, and the subtraction
    raises. *)
Lemma get_system_summary_no_data_overflow :
  (0 < 100000000)%Z /\
  get_system_history (Sample.db (F := float) [] [] []) 100000000 = Ok [] /\
  fst (get_system_summary (Sample.db (F := float) [] [] []) 100000000
                          Sample.world)
  = Raise OverflowError.
Proof.
  split; [reflexivity|]. split; [reflexivity|]. vm_compute. reflexivity.
Qed.

(** Every path through [get_system_summary] sends the one query. *)
Lemma get_system_summary_queries
      {F : Type} {HN : Num F}
      (db : DatabaseManager F) (hours : Z) (w : World) :
  queries (snd (get_system_summary db hours w))
  = queries w ++ [SystemHistory hours].
Proof.
  unfold get_system_summary, bind, call, datetime_now, lift, ret, raise,
    python_int.
  destruct (get_system_history db hours) as [[|row rows]|e]; cbn [fst snd queries].
  - destruct (Datetime.timedelta_hours hours) as [delta|e]; [|reflexivity].
    destruct (Datetime.sub _ delta) as [start|e]; reflexivity.
  - destruct (f_trunc _); reflexivity.
  - reflexivity.
Qed.

(** C3, as amended.  The analyzer checks none of its arguments.  Whatever
    [hours], [limit] and [process_name] are, zero, negative and empty ones
    included, [get_system_summary], [get_top_processes] and
    [get_process_analysis] each send the database manager one query that
    carries the argument as it came; when the database manager raises, the
    method raises the same exception, and [get_top_processes] returns
    whatever the database manager answers. *)
Theorem arguments_forwarded_unchecked
        {F : Type} {HN : Num F} (db : DatabaseManager F) (w : World) :
  (forall hours,
      queries (snd (get_system_summary db hours w))
      = queries w ++ [SystemHistory hours] /\
      forall e, get_system_history db hours = Raise e ->
                fst (get_system_summary db hours w) = Raise e) /\
  (forall limit,
      queries (snd (get_top_processes db limit w))
      = queries w ++ [TopProcessesByCpu limit] /\
      fst (get_top_processes db limit w) = get_top_processes_by_cpu db limit) /\
  (forall process_name,
      queries (snd (get_process_analysis db process_name w))
      = queries w ++ [ProcessTrend process_name] /\
      forall e, get_process_trend db process_name = Raise e ->
                fst (get_process_analysis db process_name w) = Raise e).
Proof.
  split; [|split].
  - intros hours. split; [apply get_system_summary_queries|].
    intros e He. now rewrite (get_system_summary_failed db hours w He).
  - intros limit. split; reflexivity.
  - intros process_name. split.
    + unfold get_process_analysis, bind, call, ret.
      destruct (get_process_trend db process_name) as [[|row rows]|e];
        reflexivity.
    + intros e He. now rewrite (get_process_analysis_failed db process_name w He).
Qed.

(** C3 as it is worded fails: a window of zero hours, a limit of -1 and the
    empty process name are each sent on to the database manager, and its
    answer is returned. *)
Lemma invalid_arguments_reach_the_store :
  (exists s,
      fst (get_system_summary (Sample.db (F := float) [] [] []) 0 Sample.world)
      = Ok s) /\
  queries (snd (get_system_summary (Sample.db (F := float) [] [] []) 0
                                   Sample.world))
  = [SystemHistory 0] /\
  fst (get_top_processes (Sample.db [] Sample.ranking []) (-1) Sample.world)
  = Ok Sample.ranking /\
  queries (snd (get_top_processes (Sample.db [] Sample.ranking []) (-1)
                                  Sample.world))
  = [TopProcessesByCpu (-1)] /\
  (exists a,
      fst (get_process_analysis (Sample.db [] [] Sample.busy_trend) ""
                                Sample.world)
      = Ok a /\ Analysis.data_points a = 2%nat) /\
  queries (snd (get_process_analysis (Sample.db [] [] Sample.busy_trend) ""
                                     Sample.world))
  = [ProcessTrend ""].
Proof.
  repeat split.
  - eexists. vm_compute. reflexivity.
  - eexists. split; vm_compute; reflexivity.
Qed.

(** C4, as amended.  With the database manager in one state, what a method
    returns is the same in any two worlds, whatever was queried or read
    before: for [get_top_processes], [get_process_analysis] and the four
    chart methods always; for [get_system_summary] whenever the history is
    not empty, and over an empty history whenever the clock gives the same
    two readings, since [start_time] and [end_time] are then taken from the
    clock. *)
Theorem same_store_same_answer
        {F : Type} {HN : Num F} (db : DatabaseManager F) (w1 w2 : World) :
  (forall limit,
      fst (get_top_processes db limit w1) = fst (get_top_processes db limit w2)) /\
  (forall process_name,
      fst (get_process_analysis db process_name w1)
      = fst (get_process_analysis db process_name w2)) /\
  (forall hours,
      fst (generate_cpu_usage_chart db hours w1)
      = fst (generate_cpu_usage_chart db hours w2)) /\
  (forall hours,
      fst (generate_memory_usage_chart db hours w1)
      = fst (generate_memory_usage_chart db hours w2)) /\
  (forall limit,
      fst (generate_top_processes_chart db limit w1)
      = fst (generate_top_processes_chart db limit w2)) /\
  (forall process_name,
      fst (generate_process_trend_chart db process_name w1)
      = fst (generate_process_trend_chart db process_name w2)) /\
  (forall hours,
      get_system_history db hours <> Ok [] ->
      fst (get_system_summary db hours w1) = fst (get_system_summary db hours w2)) /\
  (forall hours,
      clock w1 (reads w1) = clock w2 (reads w2) ->
      clock w1 (S (reads w1)) = clock w2 (S (reads w2)) ->
      fst (get_system_summary db hours w1) = fst (get_system_summary db hours w2)).
Proof.
  repeat apply conj.
  - reflexivity.
  - intros process_name. unfold get_process_analysis, bind, call, ret.
    destruct (get_process_trend db process_name) as [[|row rows]|e]; reflexivity.
  - intros hours. unfold generate_cpu_usage_chart, bind, call, ret.
    destruct (get_system_history db hours) as [[|row rows]|e]; reflexivity.
  - intros hours. unfold generate_memory_usage_chart, bind, call, ret.
    destruct (get_system_history db hours) as [[|row rows]|e]; reflexivity.
  - intros limit.
    unfold generate_top_processes_chart, get_top_processes, bind, call, ret.
    destruct (get_top_processes_by_cpu db limit) as [[|row rows]|e]; reflexivity.
  - intros process_name. unfold generate_process_trend_chart, bind, call, ret.
    destruct (get_process_trend db process_name) as [[|row rows]|e]; reflexivity.
  - intros hours Hne.
    unfold get_system_summary, bind, call, ret, raise, python_int.
    destruct (get_system_history db hours) as [[|row rows]|e];
      [congruence| |reflexivity].
    destruct (f_trunc _); reflexivity.
  - intros hours Hnow1 Hnow2.
    unfold get_system_summary, bind, call, datetime_now, lift, ret, raise,
      python_int.
    destruct (get_system_history db hours) as [[|row rows]|e];
      cbn [clock reads queries].
    + rewrite Hnow1, Hnow2.
      destruct (Datetime.timedelta_hours hours) as [delta|e]; [|reflexivity].
      destruct (Datetime.sub _ delta) as [start|e]; reflexivity.
    + destruct (f_trunc _); reflexivity.
    + reflexivity.
Qed.

(** C4 as it is worded fails: over an empty history, with nothing changed
    in the database manager, a second call of [get_system_summary] made
    after the first one returns another summary than the first did. *)
Lemma get_system_summary_twice_differs :
  fst (get_system_summary (Sample.db (F := float) [] [] []) 24 Sample.world)
  <> fst (get_system_summary
            (Sample.db (F := float) [] [] []) 24
            (snd (get_system_summary (Sample.db (F := float) [] [] []) 24
                                     Sample.world))).
Proof.
  vm_compute. discriminate.
Qed.

(** C5. When the database manager has no row for [process_name],
    [get_process_analysis] raises nothing and returns the analysis that
    carries [process_name], zero for [cpu_avg], [cpu_max], [memory_avg] and
    [memory_max], 0 for [data_points] and no row for [trend_data]. *)
Theorem get_process_analysis_no_data
        {F : Type} {HN : Num F}
        (db : DatabaseManager F) (process_name : string) (w : World) :
  get_process_trend db process_name = Ok [] ->
  fst (get_process_analysis db process_name w)
  = Ok {| Analysis.name := process_name;
          Analysis.cpu_avg := f_zero;
          Analysis.cpu_max := f_zero;
          Analysis.memory_avg := f_zero;
          Analysis.memory_max := f_zero;
          Analysis.data_points := 0;
          Analysis.trend_data := [] |}.
Proof.
  intros Hq. now rewrite (get_process_analysis_empty db process_name w Hq).
Qed.

Lemma get_process_analysis_no_data_witness :
  fst (get_process_analysis (Sample.db (F := float) [] [] []) "ghost"
                            Sample.world)
  = Ok {| Analysis.name := "ghost";
          Analysis.cpu_avg := 0%float;
          Analysis.cpu_max := 0%float;
          Analysis.memory_avg := 0%float;
          Analysis.memory_max := 0%float;
          Analysis.data_points := 0;
          Analysis.trend_data := [] |}.
Proof.
  apply (@get_process_analysis_no_data
           float binary64 (Sample.db [] [] []) "ghost" Sample.world).
  reflexivity.
Defined.



(** C7. [get_top_processes] returns the ranking of the database manager as
    it is: when that ranking has at most [limit] entries in descending
    order of [avg_cpu], so has the result, which is the same list, with
    nothing added, dropped or changed. *)
Theorem get_top_processes_passes_through
        {F : Type} {HN : Num F}
        (db : DatabaseManager F) (limit : Z) (w : World)
        (entries : list (RankingRow.t F)) :
  get_top_processes_by_cpu db limit = Ok entries ->
  (Z.of_nat (length entries) <= limit)%Z ->
  descending entries ->
  exists out,
    fst (get_top_processes db limit w) = Ok out /\
    out = entries /\
    (Z.of_nat (length out) <= limit)%Z /\
    descending out.
Proof.
  intros Hq Hlen Hsorted. exists entries.
  unfold get_top_processes, call. cbn [fst]. auto.
Qed.

Lemma get_top_processes_passes_through_witness :
  exists out,
    fst (get_top_processes (Sample.db [] Sample.ranking []) 5 Sample.world)
    = Ok out /\
    out = Sample.ranking /\
    (Z.of_nat (length out) <= 5)%Z /\
    descending out.
Proof.
  apply (@get_top_processes_passes_through
           float binary64 (Sample.db [] Sample.ranking []) 5 Sample.world
           Sample.ranking).
  - reflexivity.
  - vm_compute. discriminate.
  - intros i a b Ha Hb.
    destruct i as [|[|[|i]]]; simpl in Ha, Hb;
      try discriminate; injection Ha as <-; injection Hb as <-;
      vm_compute; reflexivity.
Defined.




(** ** Averages and maxima *)










(** ** The scenarios of the specification, run *)

(** Three samples with [cpu_percent] 10, 20, 30. *)
Example scenario_three_samples :
  fst (get_system_summary (Sample.db Sample.three_rows [] []) 24 Sample.world)
  = Ok {| Summary.cpu_avg := 20%float;
          Summary.cpu_max := 30%float;
          Summary.memory_avg := 50%float;
          Summary.memory_max := 50%float;
          Summary.disk_avg := 2%float;
          Summary.disk_max := 3%float;
          Summary.processes_avg := 102;
          Summary.start_time := Sample.new_year_2026;
          Summary.end_time := (Sample.new_year_2026 + 7200000000)%Z;
          Summary.data_points := 3 |}.
Proof. vm_compute. reflexivity. Qed.

(** The mean 100.67 of 100, 101 and 101 processes is cut to 100, not rounded
    to 101. *)
Example scenario_truncation :
  exists s,
    fst (get_system_summary (Sample.db Sample.idle_rows [] []) 24 Sample.world)
    = Ok s /\
    Summary.processes_avg s = 100%Z.
Proof. eexists. split; vm_compute; reflexivity. Qed.

(** Five processes asked for, three ranked. *)
Example scenario_three_ranked :
  fst (get_top_processes (Sample.db [] Sample.ranking []) 5 Sample.world)
  = Ok Sample.ranking.
Proof. reflexivity. Qed.

(** The database manager fails: the exception comes through. *)
Example scenario_database_down :
  fst (get_system_summary (Sample.db_down float) 24 Sample.world)
  = Raise (QueryError "database is locked").
Proof. reflexivity. Qed.

(** * Further properties of the analyzer *)






(** X3. The four chart methods check no argument and catch no exception:
    each sends the database manager one query that carries the argument as
    it came, and when the database manager raises, the method raises the
    same exception and returns no figure. *)
Theorem charts_forward_one_query
        {F : Type} {HN : Num F} (db : DatabaseManager F) (w : World) :
  (forall hours,
      queries (snd (generate_cpu_usage_chart db hours w))
      = queries w ++ [SystemHistory hours] /\
      forall e, get_system_history db hours = Raise e ->
                fst (generate_cpu_usage_chart db hours w) = Raise e) /\
  (forall hours,
      queries (snd (generate_memory_usage_chart db hours w))
      = queries w ++ [SystemHistory hours] /\
      forall e, get_system_history db hours = Raise e ->
                fst (generate_memory_usage_chart db hours w) = Raise e) /\
  (forall limit,
      queries (snd (generate_top_processes_chart db limit w))
      = queries w ++ [TopProcessesByCpu limit] /\
      forall e, get_top_processes_by_cpu db limit = Raise e ->
                fst (generate_top_processes_chart db limit w) = Raise e) /\
  (forall process_name,
      queries (snd (generate_process_trend_chart db process_name w))
      = queries w ++ [ProcessTrend process_name] /\
      forall e, get_process_trend db process_name = Raise e ->
                fst (generate_process_trend_chart db process_name w) = Raise e).
Proof.
  repeat apply conj.
  - intros hours. unfold generate_cpu_usage_chart, bind, call, ret.
    destruct (get_system_history db hours) as [[|row rows]|e];
      (split; [reflexivity | intros e' [=]; subst; reflexivity]).
  - intros hours. unfold generate_memory_usage_chart, bind, call, ret.
    destruct (get_system_history db hours) as [[|row rows]|e];
      (split; [reflexivity | intros e' [=]; subst; reflexivity]).
  - intros limit.
    unfold generate_top_processes_chart, get_top_processes, bind, call, ret.
    destruct (get_top_processes_by_cpu db limit) as [[|row rows]|e];
      (split; [reflexivity | intros e' [=]; subst; reflexivity]).
  - intros process_name. unfold generate_process_trend_chart, bind, call, ret.
    destruct (get_process_trend db process_name) as [[|row rows]|e];
      (split; [reflexivity | intros e' [=]; subst; reflexivity]).
Qed.

(** X4. The wall clock is read by [get_system_summary] over an empty
    history and by nothing else: [get_top_processes],
    [get_process_analysis] and the four chart methods never read it, nor
    does [get_system_summary] when the database manager answers with rows
    or raises; over an empty history it reads the clock once or twice. *)
Theorem clock_read_only_for_empty_history
        {F : Type} {HN : Num F} (db : DatabaseManager F) (w : World) :
  (forall limit, reads (snd (get_top_processes db limit w)) = reads w) /\
  (forall process_name,
      reads (snd (get_process_analysis db process_name w)) = reads w) /\
  (forall hours, reads (snd (generate_cpu_usage_chart db hours w)) = reads w) /\
  (forall hours,
      reads (snd (generate_memory_usage_chart db hours w)) = reads w) /\
  (forall limit,
      reads (snd (generate_top_processes_chart db limit w)) = reads w) /\
  (forall process_name,
      reads (snd (generate_process_trend_chart db process_name w)) = reads w) /\
  (forall hours,
      get_system_history db hours <> Ok [] ->
      reads (snd (get_system_summary db hours w)) = reads w) /\
  (forall hours,
      get_system_history db hours = Ok [] ->
      (reads w < reads (snd (get_system_summary db hours w)) <= reads w + 2)%nat).
Proof.
  repeat apply conj.
  - reflexivity.
  - intros process_name. unfold get_process_analysis, bind, call, ret.
    destruct (get_process_trend db process_name) as [[|row rows]|e]; reflexivity.
  - intros hours. unfold generate_cpu_usage_chart, bind, call, ret.
    destruct (get_system_history db hours) as [[|row rows]|e]; reflexivity.
  - intros hours. unfold generate_memory_usage_chart, bind, call, ret.
    destruct (get_system_history db hours) as [[|row rows]|e]; reflexivity.
  - intros limit.
    unfold generate_top_processes_chart, get_top_processes, bind, call, ret.
    destruct (get_top_processes_by_cpu db limit) as [[|row rows]|e]; reflexivity.
  - intros process_name. unfold generate_process_trend_chart, bind, call, ret.
    destruct (get_process_trend db process_name) as [[|row rows]|e]; reflexivity.
  - intros hours Hne.
    unfold get_system_summary, bind, call, ret, raise, python_int.
    destruct (get_system_history db hours) as [[|row rows]|e];
      [congruence| |reflexivity].
    destruct (f_trunc _); reflexivity.
  - intros hours Hq.
    unfold get_system_summary, bind, call, datetime_now, lift, ret.
    rewrite Hq. cbn [clock reads queries].
    destruct (Datetime.timedelta_hours hours) as [delta|e]; cbn [reads snd];
      [|lia].
    destruct (Datetime.sub _ delta) as [start|e]; cbn [reads snd]; lia.
Qed.

Lemma clock_read_only_for_empty_history_witness :
  reads (snd (get_system_summary (Sample.db Sample.three_rows [] []) 24
                                 Sample.world)) = reads Sample.world /\
  (reads Sample.world
   < reads (snd (get_system_summary (Sample.db (F := float) [] [] []) 24
                                    Sample.world))
   <= reads Sample.world + 2)%nat.
Proof.
  destruct (@clock_read_only_for_empty_history
              float binary64 (Sample.db Sample.three_rows [] []) Sample.world)
    as (_ & _ & _ & _ & _ & _ & Hrows & _).
  destruct (@clock_read_only_for_empty_history
              float binary64 (Sample.db [] [] []) Sample.world)
    as (_ & _ & _ & _ & _ & _ & _ & Hempty).
  split.
  - apply Hrows. discriminate.
  - apply Hempty. reflexivity.
Defined.





(** ** Missing values *)

Lemma dropna_notna {F : Type} {HN : Num F} (s : list F) : numeric (dropna s).
Proof.
  apply Forall_forall. intros x Hx. apply filter_In in Hx.
  destruct Hx as [_ Hx]. unfold notna in Hx.
  now destruct (f_isnan x).
Qed.

(** [Series.max()] returns a largest of the entries that are not NaN. *)
Lemma series_max_largest_present
      {F : Type} {HN : Num F} {HO : NumOrder HN} (s : list F) :
  largest_present (series_max s) s.
Proof.
  unfold largest_present, series_max.
  pose proof (dropna_notna s) as Hnum.
  destruct (dropna s) as [|x xs]; [reflexivity|].
  inversion Hnum; subst.
  split; [apply fold_max_in | now apply fold_max_ge].
Qed.

(** X7. A NaN in a column does not spoil its maximum.  When
    [get_system_summary] returns [s] for a history with rows, [cpu_max],
    [memory_max] and [disk_max] are each a largest of the entries of their
    column that are not NaN, and NaN when every entry is; [data_points]
    still counts every row.  Likewise [cpu_max] and [memory_max] of
    [get_process_analysis]. *)
Theorem maxima_skip_missing_values
        {F : Type} {HN : Num F} {HO : NumOrder HN}
        (db : DatabaseManager F) (hours : Z) (process_name : string) (w : World)
        (row : SystemRow.t F) (rows : list (SystemRow.t F))
        (prow : ProcessRow.t F) (prows : list (ProcessRow.t F))
        (s : Summary.t F) :
  get_system_history db hours = Ok (row :: rows) ->
  get_process_trend db process_name = Ok (prow :: prows) ->
  fst (get_system_summary db hours w) = Ok s ->
  largest_present (Summary.cpu_max s)
                  (map (@SystemRow.cpu_percent F) (row :: rows)) /\
  largest_present (Summary.memory_max s)
                  (map (@SystemRow.memory_percent F) (row :: rows)) /\
  largest_present (Summary.disk_max s)
                  (map (@SystemRow.disk_percent F) (row :: rows)) /\
  Summary.data_points s = length (row :: rows) /\
  exists a,
    fst (get_process_analysis db process_name w) = Ok a /\
    largest_present (Analysis.cpu_max a)
                    (map (@ProcessRow.cpu_percent F) (prow :: prows)) /\
    largest_present (Analysis.memory_max a)
                    (map (@ProcessRow.memory_mb F) (prow :: prows)) /\
    Analysis.data_points a = length (prow :: prows).
Proof.
  intros Hq Hp.
  rewrite (get_process_analysis_rows db process_name w Hp).
  unfold get_system_summary, bind, call, ret, raise, python_int.
  rewrite Hq. destruct (f_trunc _); cbn [fst]; [|discriminate].
  intros [= <-].
  cbn [Summary.cpu_max Summary.memory_max Summary.disk_max Summary.data_points].
  repeat split; try apply series_max_largest_present.
  eexists. split; [reflexivity|].
  cbn [Analysis.cpu_max Analysis.memory_max Analysis.data_points].
  repeat split; apply series_max_largest_present.
Qed.

Lemma maxima_skip_missing_values_witness :
  exists s a,
    fst (get_system_summary (Sample.db Gaps.rows [] Gaps.trend) 24 Sample.world)
    = Ok s /\
    fst (get_process_analysis (Sample.db Gaps.rows [] Gaps.trend) "chrome"
                              Sample.world) = Ok a /\
    Summary.cpu_max s = 30%float /\
    Summary.memory_max s = 60%float /\
    PrimFloat.is_nan (Summary.disk_max s) = true /\
    Summary.data_points s = 3%nat /\
    Analysis.cpu_max a = 30%float /\
    Analysis.memory_max a = 200%float.
Proof.
  eexists.
  destruct (@maxima_skip_missing_values
              float binary64 binary64_order
              (Sample.db Gaps.rows [] Gaps.trend) 24 "chrome" Sample.world
              (SystemRow.mk Sample.new_year_2026 10%float 50%float
                            PrimFloat.nan 100)
              (tl Gaps.rows)
              (ProcessRow.mk Sample.new_year_2026 PrimFloat.nan 200%float)
              (tl Gaps.trend) _ eq_refl eq_refl eq_refl)
    as (_ & _ & _ & Hn & a & Ha & _ & _ & _).
  exists a. split; [reflexivity|]. split; [exact Ha|].
  injection Ha as <-. repeat split; vm_compute; reflexivity.
Defined.

(** ** The window over an empty history *)

(** X8. Over an empty history, with the clock at a date [datetime] can
    hold, [get_system_summary] returns a summary exactly when the date
    [hours] hours before the clock is one too.  When it is not, the method
    raises [OverflowError] after its one query and a single reading of the
    clock. *)
Theorem empty_history_overflow
        {F : Type} {HN : Num F}
        (db : DatabaseManager F) (hours : Z) (w : World) :
  get_system_history db hours = Ok [] ->
  Datetime.in_range (clock w (reads w)) = true ->
  ((exists s, fst (get_system_summary db hours w) = Ok s) <->
   Datetime.in_range (clock w (reads w) - hours * Datetime.usec_per_hour)
   = true) /\
  (Datetime.in_range (clock w (reads w) - hours * Datetime.usec_per_hour)
   = false ->
   get_system_summary db hours w
   = (Raise OverflowError,
      {| clock := clock w; reads := S (reads w);
         queries := queries w ++ [SystemHistory hours] |})).
Proof.
  intros Hq Hnow.
  assert (Hout : Datetime.in_range
                   (clock w (reads w) - hours * Datetime.usec_per_hour) = false ->
                 get_system_summary db hours w
                 = (Raise OverflowError,
                    {| clock := clock w; reads := S (reads w);
                       queries := queries w ++ [SystemHistory hours] |})).
  { intros Hstart.
    unfold get_system_summary, bind, call, datetime_now, lift, ret.
    rewrite Hq. cbv beta iota. cbn [clock reads queries].
    unfold Datetime.timedelta_hours.
    destruct (Z.abs (hours / 24) <=? 999999999)%Z; [|reflexivity].
    unfold Datetime.sub. rewrite Hstart. reflexivity. }
  split; [|exact Hout]. split.
  - intros [s Hs].
    destruct (Datetime.in_range
                (clock w (reads w) - hours * Datetime.usec_per_hour)) eqn:E;
      [reflexivity|].
    rewrite (Hout eq_refl) in Hs. discriminate.
  - intros Hstart.
    rewrite (get_system_summary_empty db hours w Hq Hnow Hstart).
    eexists. reflexivity.
Qed.

Lemma empty_history_overflow_witness :
  (exists s,
      fst (get_system_summary (Sample.db (F := float) [] [] []) 168
                              Sample.world) = Ok s) /\
  get_system_summary (Sample.db (F := float) [] [] []) 20000000 Sample.world
  = (Raise OverflowError,
     {| clock := clock Sample.world; reads := 1;
        queries := [SystemHistory 20000000] |}).
Proof.
  destruct (@empty_history_overflow
              float binary64 (Sample.db [] [] []) 168 Sample.world
              eq_refl eq_refl) as [Hiff _].
  destruct (@empty_history_overflow
              float binary64 (Sample.db [] [] []) 20000000 Sample.world
              eq_refl eq_refl) as [_ Hout].
  split.
  - apply Hiff. vm_compute. reflexivity.
  - apply Hout. vm_compute. reflexivity.
Defined.



(** ** The average number of processes, without rounding *)







(** * Properties of the history dialog *)

(** ** How the load methods run *)

Lemma get_system_summary_returns_rows
      {F : Type} {HN : Num F}
      (db : DatabaseManager F) (hours : Z) (w w1 : World) (s : Summary.t F) :
  get_system_summary db hours w = (Ok s, w1) ->
  exists df, get_system_history db hours = Ok df.
Proof.
  intros Hs. destruct (get_system_history db hours) as [df|e] eqn:Hq.
  - now exists df.
  - rewrite (get_system_summary_failed db hours w Hq) in Hs. discriminate.
Qed.


Lemma load_system_data_run
      (db : DatabaseManager float) (d : Dialog.t) (w w1 : World)
      (hours : Z) (s : Summary.t float) :
  Python.getitem [6; 24; 72; 168]%Z
                 (Dialog.currentIndex (Dialog.combos d Dialog.period_combo))
  = Some hours ->
  get_system_summary db hours w = (Ok s, w1) ->
  exists cpu mem,
    fst (generate_cpu_usage_chart db hours w1) = Ok cpu /\
    fst (generate_memory_usage_chart db hours w1) = Ok mem /\
    _load_system_data db d w
    = (Done tt, shown_system s cpu mem d,
       asked (SystemHistory hours) (asked (SystemHistory hours) w1)).
Proof.
  intros Hh Hs.
  destruct (get_system_summary_returns_rows db hours w Hs) as [df Hq].
  unfold _load_system_data, ui_bind, ask, or_raise, analyzer, widget, ui_ret.
  rewrite Hh, Hs.
  unfold generate_cpu_usage_chart, generate_memory_usage_chart, bind, call, ret.
  rewrite Hq. destruct df as [|row rows]; do 2 eexists;
    (split; [reflexivity|]); (split; [reflexivity|]); reflexivity.
Qed.



Lemma load_process_data_run
      (db : DatabaseManager float) (d : Dialog.t) (w : World)
      (hours : Z) (df : list (ProcessRow.t float)) :
  Dialog.count (Dialog.combos d Dialog.process_combo) <> 0%nat ->
  Python.getitem
    [6; 24; 72; 168]%Z
    (Dialog.currentIndex (Dialog.combos d Dialog.process_period_combo))
  = Some hours ->
  get_process_trend
    db (Dialog.currentText (Dialog.combos d Dialog.process_combo)) = Ok df ->
  exists a fig,
    get_process_analysis
      db (Dialog.currentText (Dialog.combos d Dialog.process_combo)) w
    = (Ok a,
       asked (ProcessTrend
                (Dialog.currentText (Dialog.combos d Dialog.process_combo))) w) /\
    fst (generate_process_trend_chart
           db (Dialog.currentText (Dialog.combos d Dialog.process_combo)) w)
    = Ok fig /\
    _load_process_data db d w
    = (Done tt, shown_process a fig d,
       asked (ProcessTrend
                (Dialog.currentText (Dialog.combos d Dialog.process_combo)))
             (asked (ProcessTrend
                       (Dialog.currentText
                          (Dialog.combos d Dialog.process_combo))) w)).
Proof.
  intros Hn Hh Hq.
  unfold _load_process_data, ui_bind, ask, or_raise, analyzer, widget, ui_ret.
  destruct (Nat.eqb_spec (Dialog.count (Dialog.combos d Dialog.process_combo)) 0)
    as [E|_]; [contradiction|].
  rewrite Hh.
  unfold get_process_analysis, generate_process_trend_chart, bind, call, ret.
  rewrite Hq. destruct df as [|row rows]; do 2 eexists;
    (split; [reflexivity|]); (split; [reflexivity|]); reflexivity.
Qed.

Lemma load_process_data_fails
      (db : DatabaseManager float) (d : Dialog.t) (w : World)
      (hours : Z) (e : exn) :
  Dialog.count (Dialog.combos d Dialog.process_combo) <> 0%nat ->
  Python.getitem
    [6; 24; 72; 168]%Z
    (Dialog.currentIndex (Dialog.combos d Dialog.process_period_combo))
  = Some hours ->
  get_process_trend
    db (Dialog.currentText (Dialog.combos d Dialog.process_combo)) = Raise e ->
  _load_process_data db d w
  = (Failed (Raised e), d,
     asked (ProcessTrend
              (Dialog.currentText (Dialog.combos d Dialog.process_combo))) w).
Proof.
  intros Hn Hh Hq.
  unfold _load_process_data, ui_bind, ask, or_raise, analyzer, widget, ui_ret.
  destruct (Nat.eqb_spec (Dialog.count (Dialog.combos d Dialog.process_combo)) 0)
    as [E|_]; [contradiction|].
  rewrite Hh. unfold get_process_analysis, bind, call, ret. rewrite Hq.
  reflexivity.
Qed.


Lemma load_process_data_empty
      (db : DatabaseManager float) (d : Dialog.t) (w : World) :
  Dialog.count (Dialog.combos d Dialog.process_combo) = 0%nat ->
  _load_process_data db d w = (Done tt, d, w).
Proof.
  intros Hn. unfold _load_process_data, ui_bind, ask, ui_ret.
  rewrite Hn. reflexivity.
Qed.

(** ** Filling the table *)














(** ** What the dialog shows *)




Lemma getitem_period (i : Z) :
  (0 <= i <= 3)%Z ->
  exists hours,
    Python.getitem [6; 24; 72; 168]%Z i = Some hours /\
    In hours [6; 24; 72; 168]%Z.
Proof.
  intros Hi.
  assert (E : i = 0%Z \/ i = 1%Z \/ i = 2%Z \/ i = 3%Z) by lia.
  destruct E as [-> | [-> | [-> | ->]]]; eexists; (split; [reflexivity|]);
    simpl; auto.
Qed.



(** X13. Over an empty history the system tab shows what it showed when
    the dialog was set up.  With one of the four periods chosen, no row in
    the database manager for any of them, and the clock at a date
    [datetime] can hold and at least 168 hours after its first one,
    [_load_system_data] returns, its eight labels read as [_setup_system_tab]
    wrote them ("Avg: 0.0%", "Max: 0.0%", "Avg: 0", "Data Points: 0"), and
    both canvases hold the text "No data available". *)
Theorem load_system_data_no_data
        (db : DatabaseManager float) (d : Dialog.t) (w : World) :
  (0 <= Dialog.currentIndex (Dialog.combos d Dialog.period_combo) <= 3)%Z ->
  (forall hours, In hours [6; 24; 72; 168]%Z ->
                 get_system_history db hours = Ok []) ->
  Datetime.in_range (clock w (reads w)) = true ->
  (168 * Datetime.usec_per_hour <= clock w (reads w))%Z ->
  exists d',
    fst (_load_system_data db d w) = (Done tt, d') /\
    (forall l, In l system_labels ->
               Dialog.labels d' l = Dialog.labels Dialog.setup l) /\
    Dialog.figure (Dialog.canvases d' Dialog.cpu_chart_canvas)
    = Some (Figure.Text "No data available") /\
    Dialog.figure (Dialog.canvases d' Dialog.mem_chart_canvas)
    = Some (Figure.Text "No data available").
Proof.
  intros Hi Hempty Hnow Hlate.
  destruct (getitem_period Hi) as (hours & Hh & Hin).
  pose proof (Hempty hours Hin) as Hq.
  assert (Hstart : Datetime.in_range
                     (clock w (reads w) - hours * Datetime.usec_per_hour)
                   = true).
  { apply in_range_iff. apply in_range_iff in Hnow.
    change Datetime.usec_per_hour with 3600000000%Z in *.
    simpl in Hin. lia. }
  pose proof (get_system_summary_empty db hours w Hq Hnow Hstart) as Hs.
  destruct (@load_system_data_run db d w _ hours _ Hh Hs)
    as (cpu & mem & Hcpu & Hmem & ->).
  revert Hcpu Hmem.
  unfold generate_cpu_usage_chart, generate_memory_usage_chart, bind, call, ret.
  rewrite Hq. cbn [fst]. intros [= <-] [= <-].
  eexists. split; [reflexivity|]. split; [|split; reflexivity].
  intros l Hl. simpl in Hl.
  destruct Hl as [<- | [<- | [<- | [<- | [<- | [<- | [<- | [<- | []]]]]]]]];
    vm_compute; reflexivity.
Qed.

Lemma load_system_data_no_data_witness :
  exists d',
    fst (_load_system_data (Sample.db [] [] []) Dialog.setup Sample.world)
    = (Done tt, d') /\
    Dialog.labels d' Dialog.cpu_avg_label = "Avg: 0.0%"%string /\
    Dialog.labels d' Dialog.data_points_label = "Data Points: 0"%string /\
    Dialog.figure (Dialog.canvases d' Dialog.cpu_chart_canvas)
    = Some (Figure.Text "No data available").
Proof.
  destruct (@load_system_data_no_data
              (Sample.db [] [] []) Dialog.setup Sample.world)
    as (d' & Hrun & Hlabels & Hcpu & _).
  - simpl; lia.
  - reflexivity.
  - reflexivity.
  - vm_compute. discriminate.
  - exists d'. split; [exact Hrun|].
    split; [apply (Hlabels Dialog.cpu_avg_label); simpl; auto|].
    split; [apply (Hlabels Dialog.data_points_label); simpl; auto 10|].
    exact Hcpu.
Defined.




(** X15. The period chosen on the process tab changes nothing.
    [_load_process_data] reads [process_period_combo] and looks the hours
    up, but hands them to no one: for any two of the four periods, it
    returns or raises alike, sends the same queries and leaves the same
    texts, figures and table. *)
Theorem load_process_data_ignores_period
        (db : DatabaseManager float) (d : Dialog.t) (w : World) (i j : Z) :
  (0 <= i <= 3)%Z ->
  (0 <= j <= 3)%Z ->
  fst (fst (_load_process_data
              db (setCurrentIndex Dialog.process_period_combo i d) w))
  = fst (fst (_load_process_data
                db (setCurrentIndex Dialog.process_period_combo j d) w)) /\
  snd (_load_process_data
         db (setCurrentIndex Dialog.process_period_combo i d) w)
  = snd (_load_process_data
           db (setCurrentIndex Dialog.process_period_combo j d) w) /\
  (forall l,
      Dialog.labels
        (snd (fst (_load_process_data
                     db (setCurrentIndex Dialog.process_period_combo i d) w))) l
      = Dialog.labels
          (snd (fst (_load_process_data
                       db (setCurrentIndex Dialog.process_period_combo j d) w)))
          l) /\
  (forall c,
      Dialog.canvases
        (snd (fst (_load_process_data
                     db (setCurrentIndex Dialog.process_period_combo i d) w))) c
      = Dialog.canvases
          (snd (fst (_load_process_data
                       db (setCurrentIndex Dialog.process_period_combo j d) w)))
          c) /\
  Dialog.top_table
    (snd (fst (_load_process_data
                 db (setCurrentIndex Dialog.process_period_combo i d) w)))
  = Dialog.top_table
      (snd (fst (_load_process_data
                   db (setCurrentIndex Dialog.process_period_combo j d) w))).
Proof.
  intros Hi Hj.
  destruct (getitem_period Hi) as (hi & Hhi & _).
  destruct (getitem_period Hj) as (hj & Hhj & _).
  set (di := setCurrentIndex Dialog.process_period_combo i d).
  set (dj := setCurrentIndex Dialog.process_period_combo j d).
  assert (Hci : Dialog.combos di Dialog.process_combo
                = Dialog.combos d Dialog.process_combo) by reflexivity.
  assert (Hcj : Dialog.combos dj Dialog.process_combo
                = Dialog.combos d Dialog.process_combo) by reflexivity.
  destruct (Nat.eq_dec (Dialog.count (Dialog.combos d Dialog.process_combo)) 0)
    as [Hn|Hn].
  - rewrite (@load_process_data_empty db di w Hn).
    rewrite (@load_process_data_empty db dj w Hn).
    repeat split; reflexivity.
  - destruct (get_process_trend
                db (Dialog.currentText (Dialog.combos d Dialog.process_combo)))
      as [df|e] eqn:Hq.
    + destruct (@load_process_data_run db di w hi df Hn Hhi Hq)
        as (a & fig & Ha & Hfig & ->).
      destruct (@load_process_data_run db dj w hj df Hn Hhj Hq)
        as (a' & fig' & Ha' & Hfig' & ->).
      rewrite Hci in *. rewrite Hcj in *.
      rewrite Ha in Ha'. injection Ha' as <-.
      rewrite Hfig in Hfig'. injection Hfig' as <-.
      repeat split; reflexivity.
    + rewrite (@load_process_data_fails db di w hi e Hn Hhi Hq).
      rewrite (@load_process_data_fails db dj w hj e Hn Hhj Hq).
      repeat split; reflexivity.
Qed.

Lemma load_process_data_ignores_period_witness :
  queries (snd (_load_process_data
                  (Sample.db [] [] Sample.busy_trend)
                  (setCurrentIndex Dialog.process_period_combo 0 stale_dialog)
                  Sample.world))
  = [ProcessTrend "chrome"; ProcessTrend "chrome"] /\
  snd (_load_process_data
         (Sample.db [] [] Sample.busy_trend)
         (setCurrentIndex Dialog.process_period_combo 0 stale_dialog)
         Sample.world)
  = snd (_load_process_data
           (Sample.db [] [] Sample.busy_trend)
           (setCurrentIndex Dialog.process_period_combo 3 stale_dialog)
           Sample.world).
Proof.
  destruct (@load_process_data_ignores_period
              (Sample.db [] [] Sample.busy_trend) stale_dialog Sample.world 0 3)
    as (_ & Hworld & _); [lia | lia |].
  split; [reflexivity | exact Hworld].
Defined.






